(** * Cap3D x Weaviate notebooks: a shallow embedding

    The repository holds two Jupyter notebooks.  Each opens a scoped
    Weaviate client session, asserts that the service is live, reads
    collection counts, fetches one object by identifier and prints what
    it found; a further cell of each notebook counts the entries of a
    local directory.

    The notebooks are embedded as programs of a small state / exception /
    output monad.  The Weaviate client library and the service behind it
    are not part of the repository: they enter as a parameter, a record
    of operations over an arbitrary service state, each of which may
    answer or raise, and may write to standard output on its own
    account. *)

From Stdlib Require Import ZArith String List SpecFloat DecimalString.
From Stdlib Require DecimalPos DecimalZ.
From stdpp Require Import base gmap strings list.

Local Open Scope Z_scope.
Set Warnings "-register-all".

(** ** Python values that the notebooks display *)

(** Vector components are binary64 numbers; [spec_float] is the
    Standard Library's description of them. *)
Inductive pyval : Type :=
  | VNone
  | VBool (b : bool)
  | VInt (z : Z)
  | VFloat (f : spec_float)
  | VStr (s : string)
  | VList (l : list pyval)
  | VType (name : string).

(** [type(x)] *)
Definition py_type (v : pyval) : pyval :=
  match v with
  | VNone => VType "NoneType"
  | VBool _ => VType "bool"
  | VInt _ => VType "int"
  | VFloat _ => VType "float"
  | VStr _ => VType "str"
  | VList _ => VType "list"
  | VType _ => VType "type"
  end.

(** [len(xs)] on a list. *)
Definition py_len {A} (xs : list A) : Z := Z.of_nat (length xs).

(** [list(it)]: a fresh list filled by running the iterator to its end. *)
Definition py_list {A} (it : list A) : list A :=
  fold_left (fun acc x => acc ++ [x]) it [].

(** [sum(it)]: start from 0 and add each item in turn. *)
Definition py_sum (it : list Z) : Z := fold_left Z.add it 0.

(** [xs[:n]] *)
Definition py_slice_to {A} (n : nat) (xs : list A) : list A := take n xs.

(** [str(n)] for an integer. *)
Definition str_int (n : Z) : string := NilZero.string_of_int (Z.to_int n).

(** How an f-string renders an [Optional[int]]. *)
Definition format_optional_int (n : option Z) : string :=
  match n with
  | Some z => str_int z
  | None => "None"
  end.

(** [f"Number of objects in {collection} collection: {n}"] *)
Definition count_line (collection : string) (n : option Z) : pyval :=
  VStr ("Number of objects in " +:+ collection +:+ " collection: "
        +:+ format_optional_int n).

(** ** Exceptions and results *)

Record exn : Type := PyExn { exn_class : string; exn_msg : string }.

Definition AssertionError (msg : string) : exn := PyExn "AssertionError" msg.
Definition KeyError (key : string) : exn := PyExn "KeyError" key.
Definition IndexError (msg : string) : exn := PyExn "IndexError" msg.
Definition FileNotFoundError (path : string) : exn := PyExn "FileNotFoundError" path.

Inductive result (A : Type) : Type :=
  | Ok (a : A)
  | Exc (e : exn).
Arguments Ok {A} a.
Arguments Exc {A} e.

(** ** Client configuration *)

Record ProtocolParams : Type :=
  { host : string; port : Z; secure : bool }.

Record ConnectionParams : Type :=
  { http : ProtocolParams; grpc : ProtocolParams }.

(** [ConnectionParams.from_params(http_host=..., ..., grpc_secure=...)] *)
Definition from_params (http_host : string) (http_port : Z) (http_secure : bool)
    (grpc_host : string) (grpc_port : Z) (grpc_secure : bool) : ConnectionParams :=
  {| http := {| host := http_host; port := http_port; secure := http_secure |};
     grpc := {| host := grpc_host; port := grpc_port; secure := grpc_secure |} |}.

(** [Timeout(init=..., query=..., insert=...)], values in seconds. *)
Record Timeout : Type :=
  { timeout_init : Z; timeout_query : Z; timeout_insert : Z }.

Record AdditionalConfig : Type :=
  { timeout : Timeout }.

(** The constants that open the session cell of both notebooks. *)
Definition HTTP_HOST : string := "localhost".
Definition HTTP_PORT : Z := 8080.
Definition HTTP_SECURE : bool := false.

Definition GRPC_HOST : string := "localhost".
Definition GRPC_PORT : Z := 50051.
Definition GRPC_SECURE : bool := false.

Definition INTIALISATION_TIMEOUT_S : Z := 2.
Definition QUERY_TIMEOUT_S : Z := 45.
Definition INSERT_TIMEOUT_S : Z := 120.

Definition COLLECTION_NAME : string := "Cap3DMM".
Definition DATA_UPLOAD_COLLECTION_NAME : string := "UploadCap3DMM".

Definition connection_params : ConnectionParams :=
  from_params HTTP_HOST HTTP_PORT HTTP_SECURE GRPC_HOST GRPC_PORT GRPC_SECURE.

Definition additional_config : AdditionalConfig :=
  {| timeout := {| timeout_init := INTIALISATION_TIMEOUT_S;
                   timeout_query := QUERY_TIMEOUT_S;
                   timeout_insert := INSERT_TIMEOUT_S |} |}.

Definition PATH_TO_EXAMPLE_OBJECTS : string :=
  "/home/yunusskeete/Documents/data/3D/Cap3D/local-split/unzips/compressed_imgs_perobj_00.zip/Cap3D_Objaverse_renderimgs".

(** ** What the client returns *)

(** The result of [aggregate.over_all(total_count=True)]. *)
Record AggregateReturn : Type :=
  { total_count : option Z }.

(** A fetched object: its identifier and its named vectors.  A vector is
    a Python list. *)
Record Object : Type :=
  { uuid : string; vector : gmap string (list pyval) }.

(** ** Requests to the client *)

Inductive request (H : Type) : Type :=
  | ReqConnect (p : ConnectionParams) (c : AdditionalConfig)
  | ReqClose
  | ReqIsLive
  | ReqCollectionsGet (name : string)
  | ReqAggregateOverAll (h : H) (with_total_count : bool)
  | ReqFetchObjectById (h : H) (id : string) (include_vector : bool).
Arguments ReqConnect {H}.
Arguments ReqClose {H}.
Arguments ReqIsLive {H}.
Arguments ReqCollectionsGet {H}.
Arguments ReqAggregateOverAll {H}.
Arguments ReqFetchObjectById {H}.

(** ** The client library, as a parameter

    [W] is the state of everything behind the client (service, network,
    stored records), [H] the type of collection handles.  Every operation
    may change [W]; every operation but [lib_close] may raise (see
    [client_exit] below).  The client may also write to standard output
    on its own account, as its [is_live] does with an error it swallows
    before it answers [False]: [lib_stdout r w] is the text the client
    writes while it serves request [r] in state [w]. *)
Record Library (W H : Type) : Type :=
  { lib_stdout : request H -> W -> list string;
    lib_connect : ConnectionParams -> AdditionalConfig -> W -> result unit * W;
    lib_close : W -> W;
    lib_is_live : W -> result bool * W;
    lib_collections_get : string -> W -> result H * W;
    lib_aggregate_over_all : H -> bool -> W -> result AggregateReturn * W;
    lib_fetch_object_by_id : H -> string -> bool -> W -> result (option Object) * W }.
Arguments lib_stdout {W H}.
Arguments lib_connect {W H}.
Arguments lib_close {W H}.
Arguments lib_is_live {W H}.
Arguments lib_collections_get {W H}.
Arguments lib_aggregate_over_all {W H}.
Arguments lib_fetch_object_by_id {W H}.

(** ** Observable events of a cell *)

(** A call to the client with the exception it raised, if any; or a value
    handed to [print]. *)
Inductive event (H : Type) : Type :=
  | Called (r : request H) (raised : option exn)
  | Printed (v : pyval).
Arguments Called {H}.
Arguments Printed {H}.

Definition raised_of {A} (r : result A) : option exn :=
  match r with
  | Ok _ => None
  | Exc e => Some e
  end.

(** Requests that address a collection. *)
Definition is_collection_request {H} (r : request H) : bool :=
  match r with
  | ReqCollectionsGet _ | ReqAggregateOverAll _ _ | ReqFetchObjectById _ _ _ => true
  | _ => false
  end.

Definition is_collection_event {H} (e : event H) : bool :=
  match e with
  | Called r _ => is_collection_request r
  | Printed _ => false
  end.

(** The values the print statements of a cell wrote, in order. *)
Fixpoint stdout {H} (evs : list (event H)) : list pyval :=
  match evs with
  | [] => []
  | Printed v :: evs => v :: stdout evs
  | Called _ _ :: evs => stdout evs
  end.

(** What reaches standard output: a value printed by a cell, or text
    written by the client. *)
Inductive output : Type :=
  | ByNotebook (v : pyval)
  | ByClient (text : string).

(** The share of the print statements in what reached standard output. *)
Fixpoint own_output (out : list output) : list pyval :=
  match out with
  | [] => []
  | ByNotebook v :: out => v :: own_output out
  | ByClient _ :: out => own_output out
  end.

(** ** The notebook kernel and its monad *)

Section Kernel.
Context {W H : Type}.
Variable lib : Library W H.

(** What a cell runs against: the service, the directories of the local
    filesystem (path to immediate entries), whether this kernel holds an
    open connection, and what has reached standard output so far. *)
Record kernel : Type :=
  { k_world : W;
    k_fs : gmap string (list string);
    k_open : bool;
    k_stdout : list output }.

Definition set_world (w : W) (k : kernel) : kernel :=
  {| k_world := w; k_fs := k_fs k; k_open := k_open k; k_stdout := k_stdout k |}.

Definition set_open (b : bool) (k : kernel) : kernel :=
  {| k_world := k_world k; k_fs := k_fs k; k_open := b; k_stdout := k_stdout k |}.

(** Append to standard output. *)
Definition write (out : list output) (k : kernel) : kernel :=
  {| k_world := k_world k; k_fs := k_fs k; k_open := k_open k;
     k_stdout := k_stdout k ++ out |}.

(** The text the client writes while it serves [r], as output. *)
Definition client_text (r : request H) (k : kernel) : list output :=
  map ByClient (lib_stdout lib r (k_world k)).

(** A computation returns or raises, leaves a kernel, and emits events. *)
Definition M (A : Type) : Type := kernel -> result A * kernel * list (event H).

Definition ret {A} (a : A) : M A := fun k => (Ok a, k, []).

Definition raise {A} (e : exn) : M A := fun k => (Exc e, k, []).

Definition bind {A B} (m : M A) (f : A -> M B) : M B := fun k =>
  match m k with
  | (Ok a, k1, evs1) =>
      match f a k1 with
      | (r, k2, evs2) => (r, k2, evs1 ++ evs2)
      end
  | (Exc e, k1, evs1) => (Exc e, k1, evs1)
  end.

Notation "x <- m ;; f" := (bind m (fun x => f))
  (at level 100, m at next level, right associativity).
Notation "m ;;; f" := (bind m (fun _ => f))
  (at level 100, right associativity).

(** [print(v)] *)
Definition py_print (v : pyval) : M unit := fun k =>
  (Ok tt, write [ByNotebook v] k, [Printed v]).

(** [assert cond, msg] *)
Definition py_assert (cond : bool) (msg : string) : M unit :=
  if cond then ret tt else raise (AssertionError msg).

(** [d[key]] on a dict. *)
Definition py_getitem {A} (d : gmap string A) (key : string) : M A :=
  match d !! key with
  | Some a => ret a
  | None => raise (KeyError key)
  end.

(** [xs[i]] on a list. *)
Definition py_index {A} (xs : list A) (i : nat) : M A :=
  match xs !! i with
  | Some a => ret a
  | None => raise (IndexError "list index out of range")
  end.

(** One call to the client: run it against the service, let what the
    client writes through to standard output, and log the call. *)
Definition call {A} (r : request H) (op : W -> result A * W) : M A := fun k =>
  match op (k_world k) with
  | (res, w) => (res, set_world w (write (client_text r k) k), [Called r (raised_of res)])
  end.

(** [client.is_live()].  The client swallows an error of the check,
    writes it to standard output and answers [False]; that text reaches
    standard output through [call]. *)
Definition is_live : M bool := call ReqIsLive (lib_is_live lib).

Definition collections_get (name : string) : M H :=
  call (ReqCollectionsGet name) (lib_collections_get lib name).

Definition aggregate_over_all (h : H) (with_total_count : bool) : M AggregateReturn :=
  call (ReqAggregateOverAll h with_total_count)
       (lib_aggregate_over_all lib h with_total_count).

Definition fetch_object_by_id (h : H) (id : string) (include_vector : bool)
    : M (option Object) :=
  call (ReqFetchObjectById h id include_vector)
       (lib_fetch_object_by_id lib h id include_vector).

(** [__enter__]: connect; the kernel holds the connection once that
    returned. *)
Definition client_enter (p : ConnectionParams) (c : AdditionalConfig) : M unit :=
  fun k =>
    match lib_connect lib p c (k_world k) with
    | (Ok tt, w) =>
        (Ok tt, set_open true (set_world w (write (client_text (ReqConnect p c) k) k)),
         [Called (ReqConnect p c) None])
    | (Exc e, w) =>
        (Exc e, set_world w (write (client_text (ReqConnect p c) k) k),
         [Called (ReqConnect p c) (Some e)])
    end.

(** Modelled from the spec: the [__exit__] of the client, which is code
    of the client library and not of this repository.  The spec has the
    connection "acquired with scoped lifetime (guaranteed closed on exit,
    including on error)": [__exit__] closes, the close completes, and it
    returns [None], so that an exception of the body is not suppressed. *)
Definition client_exit : M unit := fun k =>
  (Ok tt,
   set_open false (set_world (lib_close lib (k_world k)) (write (client_text ReqClose k) k)),
   [Called ReqClose None]).

(** [with weaviate.WeaviateClient(connection_params=p, additional_config=c)
    as client: body].  If [__enter__] raises, the body and [__exit__] do
    not run.  Otherwise [__exit__] runs when the body returns and when it
    raises, and the body's outcome is the outcome of the statement. *)
Definition with_WeaviateClient {A} (p : ConnectionParams) (c : AdditionalConfig)
    (body : M A) : M A := fun k =>
  match client_enter p c k with
  | (Exc e, k1, evs1) => (Exc e, k1, evs1)
  | (Ok _, k1, evs1) =>
      match body k1 with
      | (r, k2, evs2) =>
          match client_exit k2 with
          | (_, k3, evs3) => (r, k3, evs1 ++ evs2 ++ evs3)
          end
      end
  end.

(** [Path(p).iterdir()]: the immediate entries of the directory.
    [k_fs] lists the directories only.  A path it does not list stands
    for a path that does not exist; a path that exists and is not a
    directory, for which Python raises NotADirectoryError, is not
    represented. *)
Definition iterdir (p : string) : M (list string) := fun k =>
  match k_fs k !! p with
  | Some entries => (Ok entries, k, [])
  | None => (Exc (FileNotFoundError p), k, [])
  end.

(** ** monitor.ipynb *)

(** First code cell: [len(list(path_to_example_objects.iterdir()))]. *)
Definition monitor_count_cell : M pyval :=
  it <- iterdir PATH_TO_EXAMPLE_OBJECTS ;;
  ret (VInt (py_len (py_list it))).

(** The [if obj:] block of the session cell. *)
Definition monitor_inspect (obj : option Object) : M unit :=
  match obj with
  | Some o =>
      v1 <- py_getitem (vector o) "default" ;;
      py_print (py_type (VList v1)) ;;;
      v2 <- py_getitem (vector o) "default" ;;
      py_print (VInt (py_len v2)) ;;;
      v3 <- py_getitem (vector o) "default" ;;
      py_print (VList (py_slice_to 5 v3))
  | None => ret tt
  end.

(** The local [uuid] of the session cell. *)
Definition monitor_uuid : string := "8e88212e-12ce-5942-954f-f49ed469dfe8".

Definition monitor_body : M unit :=
  live <- is_live ;;
  py_assert live "Weaviate client is not live" ;;;
  py_print (VStr "Client connection established") ;;;
  cap3d <- collections_get COLLECTION_NAME ;;
  agg <- aggregate_over_all cap3d true ;;
  let cap3d_object_count := total_count agg in
  py_print (count_line COLLECTION_NAME cap3d_object_count) ;;;
  obj <- fetch_object_by_id cap3d monitor_uuid true ;;
  monitor_inspect obj.

(** Second code cell. *)
Definition monitor_session_cell : M unit :=
  with_WeaviateClient connection_params additional_config monitor_body.

(** ** The second notebook *)

Definition uuids : list string :=
  [ "46c932c1-d44e-5b30-95d7-4c8909d02fb8";
    "91faaa0e-6a0f-5587-a2dd-fd6e2f3ca3e8";
    "db04848b-c5dd-5ec1-a340-adcc209e9b5e";
    "e574ddc1-3171-5a81-a3aa-d4e2928b9f54";
    "baa41176-79e8-5fbb-8b16-7444f228f88a" ].

(** The body leaves [obj] in the kernel namespace; it is the value of
    the computation here. *)
Definition explore_body : M (option Object) :=
  live <- is_live ;;
  py_assert live "Weaviate client is not live" ;;;
  py_print (VStr "Client connection established") ;;;
  cap3d <- collections_get COLLECTION_NAME ;;
  agg <- aggregate_over_all cap3d true ;;
  let cap3d_object_count := total_count agg in
  cap3d_upload <- collections_get DATA_UPLOAD_COLLECTION_NAME ;;
  agg_upload <- aggregate_over_all cap3d_upload true ;;
  let cap3d_upload_image_count := total_count agg_upload in
  py_print (count_line COLLECTION_NAME cap3d_object_count) ;;;
  py_print (count_line DATA_UPLOAD_COLLECTION_NAME cap3d_upload_image_count) ;;;
  id0 <- py_index uuids 0 ;;
  fetch_object_by_id cap3d id0 true.

(** First code cell. *)
Definition explore_session_cell : M (option Object) :=
  with_WeaviateClient connection_params additional_config explore_body.

(** Last code cell: [sum(1 for _ in path_to_example_objects.iterdir())]. *)
Definition explore_count_cell : M pyval :=
  it <- iterdir PATH_TO_EXAMPLE_OBJECTS ;;
  ret (VInt (py_sum (map (fun _ => 1) it))).

End Kernel.

Arguments kernel : clear implicits.
Arguments M : clear implicits.

(** ** An in-memory service

    A small concrete library and service, used to run the notebooks on
    explicit inputs. *)

Record Mem : Type :=
  { mem_reachable : bool;
    mem_live : bool;
    mem_store : gmap string (gmap string Object);
    mem_served : nat }.

Definition mem_serve (m : Mem) : Mem :=
  {| mem_reachable := mem_reachable m; mem_live := mem_live m;
     mem_store := mem_store m; mem_served := S (mem_served m) |}.

Definition mem_unknown_collection (name : string) : exn :=
  PyExn "WeaviateQueryError" name.

Definition mem_lib : Library Mem string :=
  {| lib_stdout := fun _ _ => [];
     lib_connect := fun _ _ m =>
       if mem_reachable m then (Ok tt, mem_serve m)
       else (Exc (PyExn "WeaviateStartUpError" "connection refused"), m);
     lib_close := fun m => m;
     lib_is_live := fun m => (Ok (mem_live m), mem_serve m);
     lib_collections_get := fun name m => (Ok name, m);
     lib_aggregate_over_all := fun h with_total_count m =>
       match mem_store m !! h with
       | Some objs =>
           (Ok {| total_count :=
                    if with_total_count then Some (Z.of_nat (size objs)) else None |},
            mem_serve m)
       | None => (Exc (mem_unknown_collection h), mem_serve m)
       end;
     lib_fetch_object_by_id := fun h id include_vector m =>
       match mem_store m !! h with
       | Some objs =>
           (Ok ((fun o => if include_vector then o
                          else {| uuid := uuid o; vector := ∅ |}) <$> objs !! id),
            mem_serve m)
       | None => (Exc (mem_unknown_collection h), mem_serve m)
       end |}.

(** What the client writes when its liveness check fails. *)
Definition not_live_text : string := "liveness check failed".

(** The same service behind a client that writes the error its liveness
    check swallowed before it answers [False]. *)
Definition noisy_lib : Library Mem string :=
  {| lib_stdout := fun r m =>
       match r with
       | ReqIsLive => if mem_live m then [] else [not_live_text]
       | _ => []
       end;
     lib_connect := lib_connect mem_lib;
     lib_close := lib_close mem_lib;
     lib_is_live := lib_is_live mem_lib;
     lib_collections_get := lib_collections_get mem_lib;
     lib_aggregate_over_all := lib_aggregate_over_all mem_lib;
     lib_fetch_object_by_id := lib_fetch_object_by_id mem_lib |}.

Definition mem_kernel (m : Mem) (fs : gmap string (list string)) : kernel Mem :=
  {| k_world := m; k_fs := fs; k_open := false; k_stdout := [] |}.

(** 0.5, 0.25 and -0.5 as binary64. *)
Definition f_half : spec_float := S754_finite false 4503599627370496 (-53).
Definition f_quarter : spec_float := S754_finite false 4503599627370496 (-54).
Definition f_minus_half : spec_float := S754_finite true 4503599627370496 (-53).

Definition sample_vector : list pyval :=
  [VFloat f_half; VFloat f_quarter; VFloat f_minus_half; VFloat f_half;
   VFloat f_quarter; VFloat f_half; VFloat f_minus_half].

Definition obj_with_vector : Object :=
  {| uuid := monitor_uuid; vector := {[ "default" := sample_vector ]} |}.

Definition obj_without_vector : Object :=
  {| uuid := monitor_uuid; vector := ∅ |}.

Definition mem_with (live : bool) (o : option Object) : Mem :=
  {| mem_reachable := true;
     mem_live := live;
     mem_store :=
       {[ COLLECTION_NAME :=
            match o with
            | Some o => {[ uuid o := o ]}
            | None => ∅
            end;
          DATA_UPLOAD_COLLECTION_NAME := ∅ ]};
     mem_served := 0 |}.

(** A live service that holds no collection at all. *)
Definition mem_no_collections : Mem :=
  {| mem_reachable := true; mem_live := true; mem_store := ∅; mem_served := 0 |}.

Definition one_entry_fs : gmap string (list string) :=
  {[ PATH_TO_EXAMPLE_OBJECTS := ["a"]%string ]}.

Definition sample_fs : gmap string (list string) :=
  {[ PATH_TO_EXAMPLE_OBJECTS := ["a"; "b"]%string ]}.


(** ** Outcome, final kernel and events of a run *)

Definition outcome {W H A} (run : result A * kernel W * list (event H)) : result A :=
  run.1.1.

Definition final {W H A} (run : result A * kernel W * list (event H)) : kernel W :=
  run.1.2.

Definition events {W H A} (run : result A * kernel W * list (event H)) : list (event H) :=
  run.2.

(** The two calls that open every session. *)
Definition session_opening {H} : list (event H) :=
  [Called (ReqConnect connection_params additional_config) None; Called ReqIsLive None].

Definition not_live_message : string := "Weaviate client is not live".

Definition established_message : string := "Client connection established".

(** What follows a call that raised: nothing if it was the connect of
    [__enter__], the close of [__exit__] otherwise. *)
Definition scope_exit_after {H} (r : request H) : list (event H) :=
  match r with
  | ReqConnect _ _ => []
  | _ => [Called ReqClose None]
  end.

Definition is_close_event {H} (e : event H) : bool :=
  match e with
  | Called ReqClose _ => true
  | _ => false
  end.

(** The kernel with another filesystem. *)
Definition set_fs {W} (fs : gmap string (list string)) (k : kernel W) : kernel W :=
  {| k_world := k_world k; k_fs := fs; k_open := k_open k; k_stdout := k_stdout k |}.

(** The kernel in which the body of a session cell starts, once the
    connect has returned leaving the service in state [w1]. *)
Definition entered {W H} (lib : Library W H) (k : kernel W) (w1 : W) : kernel W :=
  set_open true
    (set_world w1
       (write (client_text lib (ReqConnect connection_params additional_config) k) k)).

(** A session cell that held the connection from kernel [k1] on, ran its
    body there, and released the connection as its last act: the cell
    ends as the body ended; the connection is held from the first to the
    last step of the body and no longer after the cell; the service is
    left in the state that the client's close made of the state the body
    left; and the one close comes after every event of the body. *)
Definition released_on_exit {W H A} (lib : Library W H) (cell body : M W H A)
    (k k1 : kernel W) : Prop :=
  outcome (cell k) = outcome (body k1) /\
  k_open k1 = true /\
  k_open (final (body k1)) = true /\
  k_open (final (cell k)) = false /\
  k_world (final (cell k)) = lib_close lib (k_world (final (body k1))) /\
  events (cell k) =
    Called (ReqConnect connection_params additional_config) None
      :: events (body k1) ++ [Called ReqClose None] /\
  Forall (fun e => is_close_event e = false) (events (body k1)).

(** A session cell whose connect raised [e] and left the service in
    state [w1]: the exception is the outcome, nothing else was called,
    no close was applied to the service, and the kernel holds what it
    held. *)
Definition never_opened {W H A} (cell : M W H A) (k : kernel W) (e : exn) (w1 : W)
    : Prop :=
  outcome (cell k) = Exc e /\
  k_open (final (cell k)) = k_open k /\
  k_world (final (cell k)) = w1 /\
  events (cell k) =
    [Called (ReqConnect connection_params additional_config) (Some e)].

(** What the vector report of the monitor notebook prints for a vector. *)
Definition vector_report (v : list pyval) : list pyval :=
  [VType "list"; VInt (py_len v); VList (py_slice_to 5 v)].

(** Unfold a session cell down to the calls into the library. *)
Ltac unfold_cell :=
  unfold outcome, final, events,
    monitor_session_cell, explore_session_cell, with_WeaviateClient,
    client_enter, client_exit, monitor_body, explore_body, monitor_inspect,
    is_live, collections_get, aggregate_over_all, fetch_object_by_id, call,
    py_assert, py_print, py_getitem, py_index, bind, ret, raise.

(** Split on the answer of the next library call of the goal, or on the
    next value a cell branches on. *)
Ltac case_call :=
  match goal with
  | |- context [match ?op (k_world ?k) with _ => _ end] =>
      let r := fresh "r" in
      let w := fresh "w" in
      let E := fresh "E" in
      destruct (op (k_world k)) as [r w] eqn:E; destruct r as [[]|] || destruct r; cbn
  | |- context [match ?op ?w with _ => _ end] =>
      is_var w;
      let r := fresh "r" in
      let w' := fresh "w" in
      let E := fresh "E" in
      destruct (op w) as [r w'] eqn:E; destruct r; cbn
  | |- context [if ?b then _ else _] =>
      is_var b; destruct b; cbn
  | |- context [match ?o with Some _ => _ | None => _ end] =>
      let E := fresh "E" in
      destruct o eqn:E; cbn
  end.

(** Find where an event list given in full splits around one event. *)
Ltac split_events pre :=
  repeat (destruct pre as [|? pre]; simplify_eq/=).

(** ** The namespace of the second notebook

    Cells of a notebook share the names they bind.  The session cell of
    the second notebook binds [obj] as its last statement, and two later
    cells read it: one evaluates [obj], one evaluates [obj.vector].  No
    later cell reads any other name the session cell binds ([client],
    [cap3d], the counts, the constants), and those are not represented:
    [namespace] records the binding of [obj] and nothing else. *)

Definition NameError (name : string) : exn := PyExn "NameError" name.
Definition AttributeError (msg : string) : exn := PyExn "AttributeError" msg.

(** What a cell shows as its value. *)
Inductive display : Type :=
  | DisplayObject (o : Object)
  | DisplayVectors (d : gmap string (list pyval)).

(** [ns_obj]: [None] while [obj] is unbound, [Some None] when it is bound
    to [None], [Some (Some o)] when it is bound to a record. *)
Record namespace : Type :=
  { ns_obj : option (option Object) }.

(** The session cell and the binding of [obj]: [obj = ...] is its last
    statement, so [obj] is bound anew exactly when the cell did not
    raise. *)
Definition explore_session_run {W H} (lib : Library W H) (ns : namespace)
    (k : kernel W) : namespace * (result unit * kernel W * list (event H)) :=
  match explore_session_cell lib k with
  | (Ok obj, k', evs) => ({| ns_obj := Some obj |}, (Ok tt, k', evs))
  | (Exc e, k', evs) => (ns, (Exc e, k', evs))
  end.

(** The cell [obj].  The notebook shows the value of a cell unless the
    value is [None]. *)
Definition explore_obj_cell (ns : namespace) : result (option display) :=
  match ns_obj ns with
  | None => Exc (NameError "obj")
  | Some None => Ok None
  | Some (Some o) => Ok (Some (DisplayObject o))
  end.

(** The cell [obj.vector]. *)
Definition explore_obj_vector_cell (ns : namespace) : result (option display) :=
  match ns_obj ns with
  | None => Exc (NameError "obj")
  | Some None => Exc (AttributeError "'NoneType' object has no attribute 'vector'")
  | Some (Some o) => Ok (Some (DisplayVectors (vector o)))
  end.

(** ** Shapes of requests and of standard output *)

(** The requests the session cell of the monitor notebook may issue. *)
Definition monitor_request {H} (r : request H) : Prop :=
  match r with
  | ReqConnect p c => p = connection_params /\ c = additional_config
  | ReqClose | ReqIsLive => True
  | ReqCollectionsGet name => name = COLLECTION_NAME
  | ReqAggregateOverAll _ with_total_count => with_total_count = true
  | ReqFetchObjectById _ id include_vector =>
      id = monitor_uuid /\ include_vector = true
  end.

(** The requests the session cell of the second notebook may issue. *)
Definition explore_request {H} (r : request H) : Prop :=
  match r with
  | ReqConnect p c => p = connection_params /\ c = additional_config
  | ReqClose | ReqIsLive => True
  | ReqCollectionsGet name =>
      name = COLLECTION_NAME \/ name = DATA_UPLOAD_COLLECTION_NAME
  | ReqAggregateOverAll _ with_total_count => with_total_count = true
  | ReqFetchObjectById _ id include_vector =>
      Some id = head uuids /\ include_vector = true
  end.

(** The collection handle a request is addressed to. *)
Definition request_handle {H} (r : request H) : option H :=
  match r with
  | ReqAggregateOverAll h _ | ReqFetchObjectById h _ _ => Some h
  | _ => None
  end.

Definition is_fetch_event {H} (e : event H) : bool :=
  match e with
  | Called (ReqFetchObjectById _ _ _) _ => true
  | _ => false
  end.

Definition is_call_event {H} (e : event H) : bool :=
  match e with
  | Called _ _ => true
  | Printed _ => false
  end.

(** Go through the members of an event list given in full. *)
Ltac each_event Hin :=
  cbn in Hin; repeat (destruct Hin as [Hin | Hin]; [simplify_eq/= |]);
  try (exfalso; exact Hin).

(** A record stored under the first identifier of the second notebook,
    with no vector, as the notebook's own [{}] shows one was. *)
Definition obj_explored : Object :=
  {| uuid := "46c932c1-d44e-5b30-95d7-4c8909d02fb8"; vector := ∅ |}.

(** [sample_fs] listed in the other order. *)
Definition swapped_fs : gmap string (list string) :=
  {[ PATH_TO_EXAMPLE_OBJECTS := ["b"; "a"]%string ]}.

Definition fresh_namespace : namespace := {| ns_obj := None |}.

(** A computation whose print events are its share of what it sent to
    standard output: it only appends, and what it appended holds, beside
    the client's text, exactly the printed values, in order. *)
Definition output_agrees {W H A} (m : M W H A) : Prop :=
  forall k, exists out,
    k_stdout (final (m k)) = k_stdout k ++ out /\
    own_output out = stdout (events (m k)).

(** ** Sample runs *)

Example monitor_run_sample :
  let '(r, k, evs) :=
    monitor_session_cell mem_lib (mem_kernel (mem_with true (Some obj_with_vector)) sample_fs) in
  r = Ok tt /\ k_open k = false /\
  stdout evs =
    [ VStr "Client connection established";
      VStr "Number of objects in Cap3DMM collection: 1";
      VType "list";
      VInt 7;
      VList [VFloat f_half; VFloat f_quarter; VFloat f_minus_half; VFloat f_half;
             VFloat f_quarter] ].
Proof. vm_compute. auto. Qed.

Example explore_run_sample :
  let '(r, k, evs) :=
    explore_session_cell mem_lib (mem_kernel (mem_with true None) sample_fs) in
  r = Ok None /\ k_open k = false /\
  stdout evs =
    [ VStr "Client connection established";
      VStr "Number of objects in Cap3DMM collection: 0";
      VStr "Number of objects in UploadCap3DMM collection: 0" ].
Proof. vm_compute. auto. Qed.

Example count_cells_sample :
  outcome (monitor_count_cell (H:=string) (mem_kernel (mem_with true None) sample_fs))
    = Ok (VInt 2) /\
  outcome (explore_count_cell (H:=string) (mem_kernel (mem_with true None) sample_fs))
    = Ok (VInt 2).
Proof. vm_compute. auto. Qed.

(** ** Counting *)

Lemma py_list_acc {A} (it acc : list A) :
  fold_left (fun acc x => acc ++ [x]) it acc = acc ++ it.
Proof.
  revert acc.
  induction it as [|x it IH]; intros acc; cbn.
  - by rewrite app_nil_r.
  - by rewrite IH, <- app_assoc.
Qed.

Lemma py_list_id {A} (it : list A) : py_list it = it.
Proof. unfold py_list. by rewrite py_list_acc. Qed.

Lemma py_sum_ones_acc {A} (it : list A) (start : Z) :
  fold_left Z.add (map (fun _ => 1) it) start = start + Z.of_nat (length it).
Proof.
  revert start.
  induction it as [|x it IH]; intros start; cbn [map fold_left length].
  - lia.
  - rewrite IH. lia.
Qed.

Lemma py_sum_ones {A} (it : list A) :
  py_sum (map (fun _ => 1) it) = Z.of_nat (length it).
Proof. unfold py_sum. rewrite py_sum_ones_acc. lia. Qed.

Lemma py_len_py_list {A} (it : list A) : py_len (py_list it) = Z.of_nat (length it).
Proof. by rewrite py_list_id. Qed.

Section Counting.
Context {W H : Type}.

(** What either counting cell evaluates to. *)
Lemma monitor_count_cell_run (k : kernel W) :
  monitor_count_cell (H:=H) k =
    match k_fs k !! PATH_TO_EXAMPLE_OBJECTS with
    | Some d => (Ok (VInt (Z.of_nat (length d))), k, [])
    | None => (Exc (FileNotFoundError PATH_TO_EXAMPLE_OBJECTS), k, [])
    end.
Proof.
  unfold monitor_count_cell, bind, iterdir, ret.
  destruct (k_fs k !! PATH_TO_EXAMPLE_OBJECTS) as [d|]; [|done].
  by rewrite py_len_py_list.
Qed.

Lemma explore_count_cell_run (k : kernel W) :
  explore_count_cell (H:=H) k =
    match k_fs k !! PATH_TO_EXAMPLE_OBJECTS with
    | Some d => (Ok (VInt (Z.of_nat (length d))), k, [])
    | None => (Exc (FileNotFoundError PATH_TO_EXAMPLE_OBJECTS), k, [])
    end.
Proof.
  unfold explore_count_cell, bind, iterdir, ret.
  destruct (k_fs k !! PATH_TO_EXAMPLE_OBJECTS) as [d|]; [|done].
  by rewrite py_sum_ones.
Qed.

(** C7. For every directory snapshot [d], [len(list(d.iterdir()))] and
    [sum(1 for _ in d.iterdir())] are the same number, the number of
    immediate entries of [d]; and on every kernel the two counting cells
    have the same outcome: that count when the directory exists, the same
    FileNotFoundError when it does not. *)
Theorem directory_counts_agree (d : list string) (k : kernel W) :
  py_len (py_list d) = py_sum (map (fun _ => 1) d) /\
  py_len (py_list d) = Z.of_nat (length d) /\
  outcome (monitor_count_cell (H:=H) k) = outcome (explore_count_cell (H:=H) k) /\
  outcome (monitor_count_cell (H:=H) k) =
    match k_fs k !! PATH_TO_EXAMPLE_OBJECTS with
    | Some entries => Ok (VInt (Z.of_nat (length entries)))
    | None => Exc (FileNotFoundError PATH_TO_EXAMPLE_OBJECTS)
    end.
Proof.
  rewrite py_len_py_list, py_sum_ones, monitor_count_cell_run, explore_count_cell_run.
  repeat split.
  destruct (k_fs k !! PATH_TO_EXAMPLE_OBJECTS); reflexivity.
Qed.

(** C8. Counting is a function of the directory snapshot alone: two runs
    of a counting cell on kernels that hold the same snapshot of the
    directory return the same count, whatever else differs between them;
    and a run leaves the kernel as it found it, so that running the cell
    again returns the same count. *)
Theorem directory_count_deterministic (k1 k2 : kernel W) :
  k_fs k1 !! PATH_TO_EXAMPLE_OBJECTS = k_fs k2 !! PATH_TO_EXAMPLE_OBJECTS ->
  outcome (monitor_count_cell (H:=H) k1) = outcome (monitor_count_cell (H:=H) k2) /\
  outcome (explore_count_cell (H:=H) k1) = outcome (explore_count_cell (H:=H) k2) /\
  final (monitor_count_cell (H:=H) k1) = k1 /\
  final (explore_count_cell (H:=H) k1) = k1 /\
  outcome (monitor_count_cell (H:=H) (final (monitor_count_cell (H:=H) k1)))
    = outcome (monitor_count_cell (H:=H) k1) /\
  outcome (explore_count_cell (H:=H) (final (explore_count_cell (H:=H) k1)))
    = outcome (explore_count_cell (H:=H) k1).
Proof.
  intros Hsame.
  assert (Hm : final (monitor_count_cell (H:=H) k1) = k1).
  { rewrite monitor_count_cell_run. by destruct (k_fs k1 !! _). }
  assert (He : final (explore_count_cell (H:=H) k1) = k1).
  { rewrite explore_count_cell_run. by destruct (k_fs k1 !! _). }
  rewrite Hm, He.
  rewrite !monitor_count_cell_run, !explore_count_cell_run, <- Hsame.
  destruct (k_fs k1 !! PATH_TO_EXAMPLE_OBJECTS); auto 10.
Qed.

End Counting.

Lemma directory_count_deterministic_witness :
  outcome (monitor_count_cell (H:=string)
             (mem_kernel (mem_with true None) sample_fs))
  = outcome (monitor_count_cell (H:=string)
               (mem_kernel (mem_with false (Some obj_with_vector)) sample_fs)).
Proof.
  exact (proj1 (directory_count_deterministic (H:=string)
                  (mem_kernel (mem_with true None) sample_fs)
                  (mem_kernel (mem_with false (Some obj_with_vector)) sample_fs)
                  eq_refl)).
Defined.


(** ** Standard output *)

Lemma own_output_app (out1 out2 : list output) :
  own_output (out1 ++ out2) = own_output out1 ++ own_output out2.
Proof.
  induction out1 as [|[v|text] out1 IH]; cbn; [done| |done].
  by rewrite IH.
Qed.

Lemma own_output_client (texts : list string) :
  own_output (map ByClient texts) = [].
Proof. by induction texts. Qed.

Lemma stdout_app {H} (evs1 evs2 : list (event H)) :
  stdout (evs1 ++ evs2) = stdout evs1 ++ stdout evs2.
Proof.
  induction evs1 as [|[r raised|v] evs1 IH]; cbn; [done|done|].
  by rewrite IH.
Qed.

(** ** The session cells *)

Section Session.
Context {W H : Type}.
Variable lib : Library W H.

(** C1. In every session where the connection opens and the liveness
    check answers "not live", both session cells end in an
    AssertionError whose message is exactly "Weaviate client is not
    live", and the only calls made are connect, is_live and close: no
    collection is addressed.  Where the check answers "live", the run
    goes on past the assertion: its next event is the print of "Client
    connection established". *)
Theorem liveness_assertion (k : kernel W) (w1 w2 : W) (live : bool) :
  lib_connect lib connection_params additional_config (k_world k) = (Ok tt, w1) ->
  lib_is_live lib w1 = (Ok live, w2) ->
  if live then
    (exists rest, events (monitor_session_cell lib k) =
       session_opening ++ Printed (VStr established_message) :: rest) /\
    (exists rest, events (explore_session_cell lib k) =
       session_opening ++ Printed (VStr established_message) :: rest)
  else
    outcome (monitor_session_cell lib k) = Exc (AssertionError not_live_message) /\
    events (monitor_session_cell lib k) = session_opening ++ [Called ReqClose None] /\
    outcome (explore_session_cell lib k) = Exc (AssertionError not_live_message) /\
    events (explore_session_cell lib k) = session_opening ++ [Called ReqClose None] /\
    Forall (fun e => is_collection_event e = false)
           (events (monitor_session_cell lib k) ++ events (explore_session_cell lib k)).
Proof.
  intros Hconnect Hlive.
  destruct live.
  - split; unfold_cell; rewrite Hconnect; cbn; rewrite Hlive; cbn.
    + repeat case_call; eexists; reflexivity.
    + repeat case_call; eexists; reflexivity.
  - unfold_cell; rewrite Hconnect; cbn; rewrite Hlive; cbn.
    repeat split; auto.
    repeat constructor.
Qed.

(** C10, amended.  In every run where the liveness check answers "not
    live", the notebook runs none of its print statements, so it does
    not print "Client connection established", and no collection
    operation is requested: the events up to the AssertionError are the
    connect and the liveness call, and the close of the scope is all
    that follows.  Standard output receives exactly the text that the
    client itself writes while it connects, checks liveness and closes,
    and nothing else. *)
Theorem notebook_silent_before_assertion_failure (k : kernel W) (w1 w2 : W) :
  lib_connect lib connection_params additional_config (k_world k) = (Ok tt, w1) ->
  lib_is_live lib w1 = (Ok false, w2) ->
  let client_wrote :=
    map ByClient
      (lib_stdout lib (ReqConnect connection_params additional_config) (k_world k)
       ++ lib_stdout lib ReqIsLive w1
       ++ lib_stdout lib ReqClose w2) in
  own_output client_wrote = [] /\
  (outcome (monitor_session_cell lib k) = Exc (AssertionError not_live_message) /\
   stdout (events (monitor_session_cell lib k)) = [] /\
   (VStr established_message ∉ stdout (events (monitor_session_cell lib k))) /\
   filter (fun e => is_collection_event e = true) (events (monitor_session_cell lib k)) = [] /\
   k_stdout (final (monitor_session_cell lib k)) = k_stdout k ++ client_wrote) /\
  (outcome (explore_session_cell lib k) = Exc (AssertionError not_live_message) /\
   stdout (events (explore_session_cell lib k)) = [] /\
   (VStr established_message ∉ stdout (events (explore_session_cell lib k))) /\
   filter (fun e => is_collection_event e = true) (events (explore_session_cell lib k)) = [] /\
   k_stdout (final (explore_session_cell lib k)) = k_stdout k ++ client_wrote).
Proof.
  intros Hconnect Hlive. cbn zeta.
  split; [apply own_output_client|].
  unfold_cell; rewrite Hconnect; cbn; rewrite Hlive; cbn.
  unfold client_text. cbn.
  rewrite !map_app, <- !app_assoc.
  repeat split; auto; apply not_elem_of_nil.
Qed.

(** C9. In every session the client is opened with the same constant
    configuration, whatever the service does: the first event of either
    session cell is the connect with [connection_params] and
    [additional_config].  These name two endpoints on one host,
    localhost, the HTTP one on port 8080 and the gRPC one on port 50051,
    each with its own security flag (both off), and three timeouts: 2
    seconds for initialisation, 45 for queries, 120 for inserts. *)
Theorem session_configuration (k : kernel W) :
  (exists r rest, events (monitor_session_cell lib k) =
     Called (ReqConnect connection_params additional_config) r :: rest) /\
  (exists r rest, events (explore_session_cell lib k) =
     Called (ReqConnect connection_params additional_config) r :: rest) /\
  connection_params =
    {| http := {| host := "localhost"; port := 8080; secure := false |};
       grpc := {| host := "localhost"; port := 50051; secure := false |} |} /\
  host (http connection_params) = host (grpc connection_params) /\
  port (http connection_params) <> port (grpc connection_params) /\
  additional_config =
    {| timeout := {| timeout_init := 2; timeout_query := 45; timeout_insert := 120 |} |}.
Proof.
  split; [|split; [|by repeat split]].
  - unfold_cell. repeat case_call; eauto.
  - unfold_cell. repeat case_call; eauto.
Qed.

(** The scoped statement, when the connect returned. *)
Lemma with_WeaviateClient_entered {A} (body : M W H A) (k : kernel W) (w1 : W) :
  lib_connect lib connection_params additional_config (k_world k) = (Ok tt, w1) ->
  let inside := body (entered lib k w1) in
  with_WeaviateClient lib connection_params additional_config body k =
    (outcome inside,
     set_open false
       (set_world (lib_close lib (k_world (final inside)))
          (write (client_text lib ReqClose (final inside)) (final inside))),
     Called (ReqConnect connection_params additional_config) None
       :: events inside ++ [Called ReqClose None]).
Proof.
  intros Hconnect. cbn.
  unfold with_WeaviateClient, client_enter, client_exit. rewrite Hconnect.
  by destruct (body _) as [[r k2] evs].
Qed.

(** The scoped statement, when the connect raised. *)
Lemma with_WeaviateClient_refused {A} (body : M W H A) (k : kernel W) (w1 : W) (e : exn) :
  lib_connect lib connection_params additional_config (k_world k) = (Exc e, w1) ->
  with_WeaviateClient lib connection_params additional_config body k =
    (Exc e,
     set_world w1
       (write (client_text lib (ReqConnect connection_params additional_config) k) k),
     [Called (ReqConnect connection_params additional_config) (Some e)]).
Proof.
  intros Hconnect.
  unfold with_WeaviateClient, client_enter. by rewrite Hconnect.
Qed.

Lemma monitor_body_never_closes (k : kernel W) :
  Forall (fun e => is_close_event e = false) (events (monitor_body lib k)).
Proof. unfold_cell. repeat case_call; repeat constructor. Qed.

Lemma explore_body_never_closes (k : kernel W) :
  Forall (fun e => is_close_event e = false) (events (explore_body lib k)).
Proof. unfold_cell. repeat case_call; repeat constructor. Qed.

Lemma monitor_body_holds_connection (k : kernel W) :
  k_open (final (monitor_body lib k)) = k_open k.
Proof. unfold_cell. repeat case_call; reflexivity. Qed.

Lemma explore_body_holds_connection (k : kernel W) :
  k_open (final (explore_body lib k)) = k_open k.
Proof. unfold_cell. repeat case_call; reflexivity. Qed.

(** C2. In every execution of either session cell the connection is
    released when control leaves the scope.  Once the connect has
    returned, the body runs with the connection held, and however it
    ends, with a value or with an exception, the cell ends the same way,
    the client's close is applied to the service state the body left,
    that close is the last event and the only close, and the kernel no
    longer holds the connection.  When the connect itself raises,
    nothing was opened and nothing is closed. *)
Theorem connection_released (k : kernel W) :
  match lib_connect lib connection_params additional_config (k_world k) with
  | (Ok _, w1) =>
      released_on_exit lib (monitor_session_cell lib) (monitor_body lib) k
        (entered lib k w1) /\
      released_on_exit lib (explore_session_cell lib) (explore_body lib) k
        (entered lib k w1)
  | (Exc e, w1) =>
      never_opened (monitor_session_cell lib) k e w1 /\
      never_opened (explore_session_cell lib) k e w1
  end.
Proof.
  destruct (lib_connect _ _ _ _) as [[[]|e] w1] eqn:Hconnect.
  - unfold released_on_exit, monitor_session_cell, explore_session_cell.
    rewrite !(with_WeaviateClient_entered _ _ _ Hconnect).
    rewrite monitor_body_holds_connection, explore_body_holds_connection.
    repeat split; auto using monitor_body_never_closes, explore_body_never_closes.
  - unfold never_opened, monitor_session_cell, explore_session_cell.
    rewrite !(with_WeaviateClient_refused _ _ _ _ Hconnect).
    repeat split.
Qed.

End Session.

Lemma liveness_assertion_witness :
  outcome (monitor_session_cell mem_lib (mem_kernel (mem_with false None) sample_fs))
    = Exc (AssertionError not_live_message) /\
  exists rest,
    events (monitor_session_cell mem_lib (mem_kernel (mem_with true None) sample_fs))
      = session_opening ++ Printed (VStr established_message) :: rest.
Proof.
  split.
  - exact (proj1 (liveness_assertion mem_lib
             (mem_kernel (mem_with false None) sample_fs) _ _ false eq_refl eq_refl)).
  - exact (proj1 (liveness_assertion mem_lib
             (mem_kernel (mem_with true None) sample_fs) _ _ true eq_refl eq_refl)).
Defined.

Lemma notebook_silent_before_assertion_failure_witness :
  stdout (events (explore_session_cell noisy_lib
                    (mem_kernel (mem_with false (Some obj_with_vector)) sample_fs))) = [] /\
  k_stdout (final (explore_session_cell noisy_lib
                    (mem_kernel (mem_with false (Some obj_with_vector)) sample_fs)))
    = [ByClient not_live_text].
Proof.
  pose proof (notebook_silent_before_assertion_failure noisy_lib
                (mem_kernel (mem_with false (Some obj_with_vector)) sample_fs) _ _
                eq_refl eq_refl) as (_ & _ & _ & Hsilent & _ & _ & Hout).
  exact (conj Hsilent Hout).
Defined.

(** C10, as first stated, fails: the client writes on its own account.
    Against a client that writes the error its liveness check swallowed
    before it answers [False], both session cells end in the
    AssertionError with that text on standard output. *)
Lemma client_writes_before_assertion_failure :
  outcome (monitor_session_cell noisy_lib (mem_kernel (mem_with false None) sample_fs))
    = Exc (AssertionError not_live_message) /\
  k_stdout (final (monitor_session_cell noisy_lib
                     (mem_kernel (mem_with false None) sample_fs)))
    = [ByClient "liveness check failed"] /\
  outcome (explore_session_cell noisy_lib (mem_kernel (mem_with false None) sample_fs))
    = Exc (AssertionError not_live_message) /\
  k_stdout (final (explore_session_cell noisy_lib
                     (mem_kernel (mem_with false None) sample_fs)))
    = [ByClient "liveness check failed"].
Proof. vm_compute. auto. Qed.

(** ** Failures inside the scope *)

Section Propagation.
Context {W H : Type}.
Variable lib : Library W H.

Lemma monitor_raise_ends_run (k : kernel W) pre req e post :
  events (monitor_session_cell lib k) = pre ++ Called req (Some e) :: post ->
  outcome (monitor_session_cell lib k) = Exc e /\ post = scope_exit_after req.
Proof.
  revert pre req e post. unfold_cell.
  repeat case_call; intros pre req e' post Hev; split_events pre; auto.
Qed.

Lemma explore_raise_ends_run (k : kernel W) pre req e post :
  events (explore_session_cell lib k) = pre ++ Called req (Some e) :: post ->
  outcome (explore_session_cell lib k) = Exc e /\ post = scope_exit_after req.
Proof.
  revert pre req e post. unfold_cell.
  repeat case_call; intros pre req e' post Hev; split_events pre; auto.
Qed.

Lemma raised_in_events (evs : list (event H)) (e : exn) :
  (exists req, In (Called req (Some e)) evs) ->
  exists pre req post, evs = pre ++ Called req (Some e) :: post.
Proof.
  intros [req Hin]. apply in_split in Hin as (pre & post & ->). eauto.
Qed.

Lemma monitor_failure_origin (k : kernel W) e :
  outcome (monitor_session_cell lib k) = Exc e ->
  (exists pre req post,
     events (monitor_session_cell lib k) = pre ++ Called req (Some e) :: post) \/
  e = AssertionError not_live_message \/
  e = KeyError "default".
Proof.
  unfold_cell.
  repeat case_call; intros He; simplify_eq/=; auto;
    left; apply raised_in_events; eexists; cbn; eauto 12.
Qed.

Lemma explore_failure_origin (k : kernel W) e :
  outcome (explore_session_cell lib k) = Exc e ->
  (exists pre req post,
     events (explore_session_cell lib k) = pre ++ Called req (Some e) :: post) \/
  e = AssertionError not_live_message.
Proof.
  unfold_cell.
  repeat case_call; intros He; simplify_eq/=; auto;
    left; apply raised_in_events; eexists; cbn; eauto 12.
Qed.

(** C6. Neither session cell handles an exception.  When a call into the
    library raises [e], the cell ends with [e] itself, and the call is
    not retried nor followed by any other call or print: after a call
    inside the scope only the close of the scope follows, after a failed
    connect nothing.  Conversely an exception at the top level is the
    one raised by a call of the run, or the liveness AssertionError, or,
    in the monitor notebook, the KeyError of the vector lookup. *)
Theorem exceptions_propagate (k : kernel W) :
  (forall pre req e post,
     events (monitor_session_cell lib k) = pre ++ Called req (Some e) :: post ->
     outcome (monitor_session_cell lib k) = Exc e /\ post = scope_exit_after req) /\
  (forall pre req e post,
     events (explore_session_cell lib k) = pre ++ Called req (Some e) :: post ->
     outcome (explore_session_cell lib k) = Exc e /\ post = scope_exit_after req) /\
  (forall e,
     outcome (monitor_session_cell lib k) = Exc e ->
     (exists pre req post,
        events (monitor_session_cell lib k) = pre ++ Called req (Some e) :: post) \/
     e = AssertionError not_live_message \/
     e = KeyError "default") /\
  (forall e,
     outcome (explore_session_cell lib k) = Exc e ->
     (exists pre req post,
        events (explore_session_cell lib k) = pre ++ Called req (Some e) :: post) \/
     e = AssertionError not_live_message).
Proof.
  split; [|split; [|split]].
  - apply monitor_raise_ends_run.
  - apply explore_raise_ends_run.
  - apply monitor_failure_origin.
  - apply explore_failure_origin.
Qed.


End Propagation.

Lemma exceptions_propagate_witness :
  outcome (monitor_session_cell mem_lib (mem_kernel mem_no_collections sample_fs))
    = Exc (mem_unknown_collection COLLECTION_NAME) /\
  [Called ReqClose None] = scope_exit_after (ReqAggregateOverAll COLLECTION_NAME true).
Proof.
  exact (proj1 (exceptions_propagate mem_lib (mem_kernel mem_no_collections sample_fs))
           [ Called (ReqConnect connection_params additional_config) None;
             Called ReqIsLive None;
             Printed (VStr established_message);
             Called (ReqCollectionsGet COLLECTION_NAME) None ]
           (ReqAggregateOverAll COLLECTION_NAME true)
           (mem_unknown_collection COLLECTION_NAME)
           [Called ReqClose None]
           eq_refl).
Defined.

(** ** What the monitor notebook shows *)

Section Monitor.
Context {W H : Type}.
Variable lib : Library W H.

(** The [if obj:] block on a record that has a "default" vector. *)
Lemma monitor_inspect_default (o : Object) (v : list pyval) (k : kernel W) :
  vector o !! "default" = Some v ->
  outcome (monitor_inspect (H:=H) (Some o) k) = Ok tt /\
  events (monitor_inspect (H:=H) (Some o) k) = map Printed (vector_report v).
Proof.
  intros Hv. unfold_cell. by rewrite Hv.
Qed.

(** C5, amended.  In the monitor notebook, once the session is live and
    the count has been printed, a fetch that returns a record whose
    vectors include a "default" entry is followed by exactly three
    prints, all about that vector: its type, its length, and its slice
    [[:5]], in that order.  A fetch that returns a record with no
    "default" vector ends the cell with KeyError, and a fetch that
    returns no record ends it normally; in both cases nothing about a
    vector is printed. *)
Theorem monitor_vector_report (k : kernel W) (w1 w2 w3 w4 w5 : W) (h : H)
    (agg : AggregateReturn) (obj : option Object) :
  lib_connect lib connection_params additional_config (k_world k) = (Ok tt, w1) ->
  lib_is_live lib w1 = (Ok true, w2) ->
  lib_collections_get lib COLLECTION_NAME w2 = (Ok h, w3) ->
  lib_aggregate_over_all lib h true w3 = (Ok agg, w4) ->
  lib_fetch_object_by_id lib h monitor_uuid true w4 = (Ok obj, w5) ->
  let run := monitor_session_cell lib k in
  let session_lines :=
    [VStr established_message; count_line COLLECTION_NAME (total_count agg)] in
  match obj with
  | Some o =>
      match vector o !! "default" with
      | Some v =>
          outcome run = Ok tt /\
          stdout (events run) = session_lines ++ vector_report v
      | None =>
          outcome run = Exc (KeyError "default") /\
          stdout (events run) = session_lines
      end
  | None =>
      outcome run = Ok tt /\
      stdout (events run) = session_lines
  end.
Proof.
  intros Hconnect Hlive Hget Hagg Hfetch. cbn zeta.
  unfold monitor_session_cell.
  rewrite (with_WeaviateClient_entered _ _ _ _ Hconnect). cbn zeta.
  unfold monitor_body, is_live, collections_get, aggregate_over_all,
    fetch_object_by_id, call, py_assert, py_print, bind, ret.
  cbn. rewrite Hlive. cbn. rewrite Hget. cbn. rewrite Hagg. cbn.
  rewrite Hfetch. cbn. unfold monitor_inspect, py_getitem, py_print, bind, ret, raise.
  destruct obj as [o|]; [|done].
  by destruct (vector o !! "default").
Qed.

(** The session cell never reads the filesystem. *)
Lemma monitor_session_ignores_fs (fs : gmap string (list string)) (k : kernel W) :
  outcome (monitor_session_cell lib (set_fs fs k)) = outcome (monitor_session_cell lib k) /\
  events (monitor_session_cell lib (set_fs fs k)) = events (monitor_session_cell lib k).
Proof.
  unfold_cell. cbn. repeat case_call; done.
Qed.

(** C4, amended.  The monitor notebook computes both numbers and shows
    each on its own.  Its first cell evaluates to the number of entries
    of the directory and calls nothing.  Its session cell, once the
    service is live and the collection calls have answered, prints the
    object count that the database reported, right after "Client
    connection established".  No comparison is computed: the session
    cell runs the same whatever the filesystem holds, and the value of
    the first cell is the same whatever the service is. *)
Theorem counts_shown_separately (k : kernel W) (w1 w2 w3 w4 : W) (h : H)
    (agg : AggregateReturn) :
  lib_connect lib connection_params additional_config (k_world k) = (Ok tt, w1) ->
  lib_is_live lib w1 = (Ok true, w2) ->
  lib_collections_get lib COLLECTION_NAME w2 = (Ok h, w3) ->
  lib_aggregate_over_all lib h true w3 = (Ok agg, w4) ->
  outcome (monitor_count_cell (H:=H) k) =
    match k_fs k !! PATH_TO_EXAMPLE_OBJECTS with
    | Some d => Ok (VInt (Z.of_nat (length d)))
    | None => Exc (FileNotFoundError PATH_TO_EXAMPLE_OBJECTS)
    end /\
  events (monitor_count_cell (H:=H) k) = [] /\
  (exists rest,
     stdout (events (monitor_session_cell lib k)) =
       VStr established_message :: count_line COLLECTION_NAME (total_count agg) :: rest) /\
  (forall fs,
     outcome (monitor_session_cell lib (set_fs fs k)) = outcome (monitor_session_cell lib k) /\
     events (monitor_session_cell lib (set_fs fs k)) = events (monitor_session_cell lib k)) /\
  (forall w,
     outcome (monitor_count_cell (H:=H) (set_world w k)) =
     outcome (monitor_count_cell (H:=H) k)).
Proof.
  intros Hconnect Hlive Hget Hagg.
  split; [|split; [|split; [|split]]].
  - rewrite monitor_count_cell_run. by destruct (k_fs k !! _).
  - rewrite monitor_count_cell_run. by destruct (k_fs k !! _).
  - unfold_cell. rewrite Hconnect. cbn. rewrite Hlive. cbn. rewrite Hget. cbn.
    rewrite Hagg. cbn. repeat case_call; eauto.
  - intros fs. apply monitor_session_ignores_fs.
  - intros w. rewrite !monitor_count_cell_run. cbn.
    by destruct (k_fs k !! _).
Qed.

End Monitor.

Lemma monitor_vector_report_witness :
  outcome (monitor_session_cell mem_lib
             (mem_kernel (mem_with true (Some obj_with_vector)) sample_fs)) = Ok tt /\
  stdout (events (monitor_session_cell mem_lib
             (mem_kernel (mem_with true (Some obj_with_vector)) sample_fs))) =
    [VStr established_message; count_line COLLECTION_NAME (Some 1)]
      ++ vector_report sample_vector.
Proof.
  refine (monitor_vector_report mem_lib
            (mem_kernel (mem_with true (Some obj_with_vector)) sample_fs)
            _ _ _ _ _ COLLECTION_NAME {| total_count := Some 1 |}
            (Some obj_with_vector) _ _ _ _ _); reflexivity.
Defined.

(** C5, as first stated, fails on a record that carries no vector: a
    record is returned, the cell ends with KeyError, and standard output
    holds the two session lines and nothing about a vector. *)
Lemma record_without_default_vector :
  (lib_fetch_object_by_id mem_lib COLLECTION_NAME monitor_uuid true
     (mem_with true (Some obj_without_vector))).1 = Ok (Some obj_without_vector) /\
  In (Called (ReqFetchObjectById COLLECTION_NAME monitor_uuid true) None)
     (events (monitor_session_cell mem_lib
                (mem_kernel (mem_with true (Some obj_without_vector)) sample_fs))) /\
  outcome (monitor_session_cell mem_lib
             (mem_kernel (mem_with true (Some obj_without_vector)) sample_fs))
    = Exc (KeyError "default") /\
  stdout (events (monitor_session_cell mem_lib
             (mem_kernel (mem_with true (Some obj_without_vector)) sample_fs)))
    = [ VStr "Client connection established";
        VStr "Number of objects in Cap3DMM collection: 1" ].
Proof. vm_compute. auto 10. Qed.

Lemma counts_shown_separately_witness :
  outcome (monitor_count_cell (H:=string)
             (mem_kernel (mem_with true None) sample_fs)) = Ok (VInt 2) /\
  exists rest,
    stdout (events (monitor_session_cell mem_lib
                      (mem_kernel (mem_with true None) sample_fs))) =
      VStr established_message :: count_line COLLECTION_NAME (Some 0) :: rest.
Proof.
  pose proof (counts_shown_separately mem_lib
                (mem_kernel (mem_with true None) sample_fs)
                _ _ _ _ COLLECTION_NAME {| total_count := Some 0 |}
                eq_refl eq_refl eq_refl eq_refl) as (Hdir & _ & Hdb & _).
  exact (conj Hdir Hdb).
Defined.

(** C4, as first stated, fails.  With two entries on disk and one object
    stored, the notebook shows the 2, the two session lines and the
    vector report; with one entry on disk, so that the counts agree, the
    session cell shows exactly the same.  No value shown is the result
    of a comparison.  And against a service that is not live the object
    count is not even asked for. *)
Lemma monitor_shows_no_comparison :
  events (monitor_session_cell mem_lib
            (mem_kernel (mem_with false (Some obj_with_vector)) sample_fs))
    = [ Called (ReqConnect connection_params additional_config) None;
        Called ReqIsLive None;
        Called ReqClose None ] /\
  outcome (monitor_count_cell (H:=string)
             (mem_kernel (mem_with true (Some obj_with_vector)) sample_fs))
    = Ok (VInt 2) /\
  stdout (events (monitor_session_cell mem_lib
             (mem_kernel (mem_with true (Some obj_with_vector)) sample_fs)))
    = [ VStr "Client connection established";
        VStr "Number of objects in Cap3DMM collection: 1";
        VType "list";
        VInt 7;
        VList [VFloat f_half; VFloat f_quarter; VFloat f_minus_half; VFloat f_half;
               VFloat f_quarter] ] /\
  outcome (monitor_count_cell (H:=string)
             (mem_kernel (mem_with true (Some obj_with_vector)) one_entry_fs))
    = Ok (VInt 1) /\
  stdout (events (monitor_session_cell mem_lib
             (mem_kernel (mem_with true (Some obj_with_vector)) one_entry_fs)))
    = stdout (events (monitor_session_cell mem_lib
                (mem_kernel (mem_with true (Some obj_with_vector)) sample_fs))) /\
  Forall (fun v => forall b, v <> VBool b)
    (stdout (events (monitor_session_cell mem_lib
                (mem_kernel (mem_with true (Some obj_with_vector)) sample_fs)))).
Proof.
  repeat split; try (vm_compute; reflexivity).
  vm_compute. repeat constructor; discriminate.
Qed.

(** ** What a session cell asks of the service, in every run *)

Create HintDb agrees discriminated.

Section SessionShape.
Context {W H : Type}.
Variable lib : Library W H.

Lemma monitor_gated (k : kernel W) (ev : event H) :
  In ev (events (monitor_session_cell lib k)) ->
  is_collection_event ev = true \/ (exists v, ev = Printed v) ->
  exists w1 w2,
    lib_connect lib connection_params additional_config (k_world k) = (Ok tt, w1) /\
    lib_is_live lib w1 = (Ok true, w2).
Proof.
  revert ev. unfold_cell.
  repeat case_call; intros ev Hin Hev; each_event Hin;
    try (destruct Hev as [Hev | [v Hev]]; discriminate); eauto.
Qed.

Lemma explore_gated (k : kernel W) (ev : event H) :
  In ev (events (explore_session_cell lib k)) ->
  is_collection_event ev = true \/ (exists v, ev = Printed v) ->
  exists w1 w2,
    lib_connect lib connection_params additional_config (k_world k) = (Ok tt, w1) /\
    lib_is_live lib w1 = (Ok true, w2).
Proof.
  revert ev. unfold_cell.
  repeat case_call; intros ev Hin Hev; each_event Hin;
    try (destruct Hev as [Hev | [v Hev]]; discriminate); eauto.
Qed.

(** X1. Everything a session cell does beyond opening and closing is
    gated by the liveness check: if a run of either session cell runs
    one of its print statements or addresses a collection at all, then
    the connect returned and is_live answered True.  So a service that
    refuses the connection, raises in is_live, or answers False is never
    queried, and the notebook prints nothing of its own; what the client
    itself may write is not the notebook's and is not meant here. *)
Theorem queries_gated_by_liveness (k : kernel W) (ev : event H) :
  In ev (events (monitor_session_cell lib k)) \/
  In ev (events (explore_session_cell lib k)) ->
  is_collection_event ev = true \/ (exists v, ev = Printed v) ->
  exists w1 w2,
    lib_connect lib connection_params additional_config (k_world k) = (Ok tt, w1) /\
    lib_is_live lib w1 = (Ok true, w2).
Proof.
  intros [Hin | Hin] Hev.
  - exact (monitor_gated k ev Hin Hev).
  - exact (explore_gated k ev Hin Hev).
Qed.

(** X2. The requests of a run are drawn from a fixed vocabulary.  The
    monitor cell only ever names the collection "Cap3DMM" (never
    "UploadCap3DMM", which it defines), aggregates with total_count=True
    and fetches the one identifier of the cell with include_vector=True.
    The second notebook names the two collections and fetches only the
    first of its five identifiers.  Every connect carries the constant
    configuration. *)
Theorem requests_in_vocabulary (k : kernel W) (r : request H) (raised : option exn) :
  (In (Called r raised) (events (monitor_session_cell lib k)) -> monitor_request r) /\
  (In (Called r raised) (events (explore_session_cell lib k)) -> explore_request r).
Proof.
  split; revert r raised; unfold_cell;
    repeat case_call; intros r raised Hin; each_event Hin; cbn; auto.
Qed.

(** X3. A handle is never made up.  Whenever a run of the monitor
    session cell aggregates over or fetches from a handle, this same run
    connected, found the service live, and was answered that very handle
    by collections.get for "Cap3DMM", in the service state the liveness
    check left.  In the second notebook the handle is that answer too,
    or, for an aggregation only, the answer of the run's later
    collections.get for "UploadCap3DMM", asked in the state the first
    aggregation left; a fetch always goes to the "Cap3DMM" handle. *)
Theorem handles_come_from_get (k : kernel W) (r : request H) (raised : option exn) (h : H) :
  request_handle r = Some h ->
  (In (Called r raised) (events (monitor_session_cell lib k)) ->
   exists w1 w2 w3,
     lib_connect lib connection_params additional_config (k_world k) = (Ok tt, w1) /\
     lib_is_live lib w1 = (Ok true, w2) /\
     lib_collections_get lib COLLECTION_NAME w2 = (Ok h, w3)) /\
  (In (Called r raised) (events (explore_session_cell lib k)) ->
   exists w1 w2 w3 cap3d,
     lib_connect lib connection_params additional_config (k_world k) = (Ok tt, w1) /\
     lib_is_live lib w1 = (Ok true, w2) /\
     lib_collections_get lib COLLECTION_NAME w2 = (Ok cap3d, w3) /\
     (h = cap3d \/
      is_fetch_event (Called r raised) = false /\
      exists agg w4 w5,
        lib_aggregate_over_all lib cap3d true w3 = (Ok agg, w4) /\
        lib_collections_get lib DATA_UPLOAD_COLLECTION_NAME w4 = (Ok h, w5))).
Proof.
  intros Hh. split; revert r raised h Hh; unfold_cell.
  - repeat case_call; intros r raised h Hh Hin; each_event Hin;
      try discriminate;
      eexists _, _, _; (split; [reflexivity | split; [eassumption | eassumption]]).
  - repeat case_call; intros r raised h Hh Hin; each_event Hin;
      try discriminate;
      eexists _, _, _, _;
      (split; [reflexivity | split; [eassumption | split; [eassumption |]]]);
      first [ left; reflexivity
            | right; split; [reflexivity |];
              eexists _, _, _; split; eassumption ].
Qed.

Lemma agrees_ret {A} (a : A) : output_agrees (W:=W) (H:=H) (ret a).
Proof. intros k. exists []. by rewrite app_nil_r. Qed.

Lemma agrees_raise {A} (e : exn) : output_agrees (W:=W) (H:=H) (A:=A) (raise e).
Proof. intros k. exists []. by rewrite app_nil_r. Qed.

Lemma agrees_print (v : pyval) : output_agrees (W:=W) (H:=H) (py_print v).
Proof. intros k. by exists [ByNotebook v]. Qed.

Lemma agrees_assert (cond : bool) (msg : string) :
  output_agrees (W:=W) (H:=H) (py_assert cond msg).
Proof. destruct cond; [apply agrees_ret | apply agrees_raise]. Qed.

Lemma agrees_getitem {A} (d : gmap string A) (key : string) :
  output_agrees (W:=W) (H:=H) (py_getitem d key).
Proof.
  unfold py_getitem. destruct (d !! key); [apply agrees_ret | apply agrees_raise].
Qed.

Lemma agrees_index {A} (xs : list A) (i : nat) :
  output_agrees (W:=W) (H:=H) (py_index xs i).
Proof.
  unfold py_index. destruct (xs !! i); [apply agrees_ret | apply agrees_raise].
Qed.

Lemma agrees_call {A} (r : request H) (op : W -> result A * W) :
  output_agrees (call lib r op).
Proof.
  intros k. exists (client_text lib r k). unfold call, final, events.
  destruct (op (k_world k)) as [res w]. cbn.
  split; [done | apply own_output_client].
Qed.

Lemma agrees_bind {A B} (m : M W H A) (f : A -> M W H B) :
  output_agrees m -> (forall a, output_agrees (f a)) -> output_agrees (bind m f).
Proof.
  intros Hm Hf k. destruct (Hm k) as (out1 & Hout1 & Hown1).
  unfold bind, final, events in *.
  destruct (m k) as [[[a|e] k1] evs1]; cbn in *; [|by exists out1].
  destruct (Hf a k1) as (out2 & Hout2 & Hown2). unfold final, events in *.
  destruct (f a k1) as [[r k2] evs2]; cbn in *.
  exists (out1 ++ out2).
  by rewrite Hout2, Hout1, app_assoc, own_output_app, stdout_app, Hown1, Hown2.
Qed.

Lemma agrees_with {A} (p : ConnectionParams) (c : AdditionalConfig) (body : M W H A) :
  output_agrees body -> output_agrees (with_WeaviateClient lib p c body).
Proof.
  intros Hbody k.
  unfold with_WeaviateClient, client_enter, client_exit, final, events.
  destruct (lib_connect lib p c (k_world k)) as [[[]|e] w1]; cbn.
  - match goal with
    | |- context [body ?k1] =>
        destruct (Hbody k1) as (out & Hout & Hown); unfold final, events in *;
        destruct (body k1) as [[r k2] evs2]; cbn in *
    end.
    exists (client_text lib (ReqConnect p c) k ++ out ++ client_text lib ReqClose k2).
    rewrite Hout, !own_output_app, stdout_app, Hown.
    unfold client_text. rewrite !own_output_client.
    split; [by rewrite <- !app_assoc | reflexivity].
  - exists (client_text lib (ReqConnect p c) k).
    split; [done | apply own_output_client].
Qed.

#[local] Hint Resolve agrees_ret agrees_raise agrees_print agrees_assert agrees_getitem
  agrees_index agrees_call : agrees.

Lemma agrees_monitor : output_agrees (monitor_session_cell lib).
Proof.
  apply agrees_with. unfold monitor_body, is_live, collections_get,
    aggregate_over_all, fetch_object_by_id.
  repeat (apply agrees_bind; [auto with agrees | intros ?]).
  match goal with
  | |- output_agrees (monitor_inspect ?obj) => destruct obj; cbn; [|apply agrees_ret]
  end.
  repeat (apply agrees_bind; [auto with agrees | intros ?]); auto with agrees.
Qed.

Lemma agrees_explore : output_agrees (explore_session_cell lib).
Proof.
  apply agrees_with. unfold explore_body, is_live, collections_get,
    aggregate_over_all, fetch_object_by_id.
  repeat (apply agrees_bind; [auto with agrees | intros ?]); auto with agrees.
Qed.

Lemma monitor_print_shapes (k : kernel W) :
  let own := stdout (events (monitor_session_cell lib k)) in
  own = [] \/
  own = [VStr established_message] \/
  (exists n, own = [VStr established_message; count_line COLLECTION_NAME n]) \/
  (exists n v,
     own = [VStr established_message; count_line COLLECTION_NAME n] ++ vector_report v).
Proof.
  cbn zeta. unfold_cell.
  repeat case_call;
    first [ left; reflexivity
          | right; left; reflexivity
          | right; right; left; eexists; reflexivity
          | right; right; right; eexists _, _; reflexivity ].
Qed.

Lemma explore_print_shapes (k : kernel W) :
  let own := stdout (events (explore_session_cell lib k)) in
  own = [] \/
  own = [VStr established_message] \/
  (exists n m,
     own = [VStr established_message;
            count_line COLLECTION_NAME n;
            count_line DATA_UPLOAD_COLLECTION_NAME m]).
Proof.
  cbn zeta. unfold_cell.
  repeat case_call;
    first [ left; reflexivity
          | right; left; reflexivity
          | right; right; eexists _, _; reflexivity ].
Qed.

(** X4. In every run the monitor session cell only appends to standard
    output, and beside whatever the client itself wrote, what it
    appended holds the values of the cell's print statements, in one of
    four shapes: nothing; the established line; that and the count line;
    or those two and a full vector report.  A partial vector report
    never appears. *)
Theorem monitor_stdout_shapes (k : kernel W) :
  exists out,
    k_stdout (final (monitor_session_cell lib k)) = k_stdout k ++ out /\
    own_output out = stdout (events (monitor_session_cell lib k)) /\
    (own_output out = [] \/
     own_output out = [VStr established_message] \/
     (exists n,
        own_output out = [VStr established_message; count_line COLLECTION_NAME n]) \/
     (exists n v,
        own_output out =
          [VStr established_message; count_line COLLECTION_NAME n] ++ vector_report v)).
Proof.
  destruct (agrees_monitor k) as (out & Hout & Hown).
  exists out. rewrite Hown. repeat split; [exact Hout|].
  apply monitor_print_shapes.
Qed.

(** X5. In every run the session cell of the second notebook only
    appends to standard output, and beside whatever the client itself
    wrote, what it appended holds the values of the cell's print
    statements: nothing, the established line, or the established line
    and both count lines.  The two count lines appear together or not at
    all, since both aggregations run before either line is printed, and
    nothing about the fetched record is printed. *)
Theorem explore_stdout_shapes (k : kernel W) :
  exists out,
    k_stdout (final (explore_session_cell lib k)) = k_stdout k ++ out /\
    own_output out = stdout (events (explore_session_cell lib k)) /\
    (own_output out = [] \/
     own_output out = [VStr established_message] \/
     (exists n m,
        own_output out =
          [VStr established_message;
           count_line COLLECTION_NAME n;
           count_line DATA_UPLOAD_COLLECTION_NAME m])).
Proof.
  destruct (agrees_explore k) as (out & Hout & Hown).
  exists out. rewrite Hown. repeat split; [exact Hout|].
  apply explore_print_shapes.
Qed.

(** X6. A run is one pass, not a polling loop: the monitor session cell
    makes at most six calls and the second notebook at most eight, with
    at most one fetch each. *)
Theorem session_call_budget (k : kernel W) :
  (length (List.filter is_call_event
             (events (monitor_session_cell lib k))) <= 6)%nat /\
  (length (List.filter is_call_event
             (events (explore_session_cell lib k))) <= 8)%nat /\
  (length (List.filter is_fetch_event
             (events (monitor_session_cell lib k))) <= 1)%nat /\
  (length (List.filter is_fetch_event
             (events (explore_session_cell lib k))) <= 1)%nat.
Proof.
  unfold_cell. repeat case_call; cbn; lia.
Qed.

End SessionShape.

(** ** The second notebook, cell after cell *)

Section Explore.
Context {W H : Type}.
Variable lib : Library W H.

(** X7. When every call of the second notebook's session cell answers,
    the cell evaluates to what the fetch returned.  The calls come in the
    order connect, is_live, get and aggregate for "Cap3DMM", get and
    aggregate for "UploadCap3DMM", the two count lines, the fetch of the
    first identifier from the "Cap3DMM" handle, close; each call acts on
    the service state the previous one left, and the service is left in
    the state the close produced. *)
Theorem explore_session_success (k : kernel W) (w1 w2 w3 w4 w5 w6 w7 : W)
    (cap3d cap3d_upload : H) (agg agg_upload : AggregateReturn) (obj : option Object) :
  lib_connect lib connection_params additional_config (k_world k) = (Ok tt, w1) ->
  lib_is_live lib w1 = (Ok true, w2) ->
  lib_collections_get lib COLLECTION_NAME w2 = (Ok cap3d, w3) ->
  lib_aggregate_over_all lib cap3d true w3 = (Ok agg, w4) ->
  lib_collections_get lib DATA_UPLOAD_COLLECTION_NAME w4 = (Ok cap3d_upload, w5) ->
  lib_aggregate_over_all lib cap3d_upload true w5 = (Ok agg_upload, w6) ->
  lib_fetch_object_by_id lib cap3d "46c932c1-d44e-5b30-95d7-4c8909d02fb8" true w6
    = (Ok obj, w7) ->
  outcome (explore_session_cell lib k) = Ok obj /\
  k_world (final (explore_session_cell lib k)) = lib_close lib w7 /\
  events (explore_session_cell lib k) =
    [ Called (ReqConnect connection_params additional_config) None;
      Called ReqIsLive None;
      Printed (VStr established_message);
      Called (ReqCollectionsGet COLLECTION_NAME) None;
      Called (ReqAggregateOverAll cap3d true) None;
      Called (ReqCollectionsGet DATA_UPLOAD_COLLECTION_NAME) None;
      Called (ReqAggregateOverAll cap3d_upload true) None;
      Printed (count_line COLLECTION_NAME (total_count agg));
      Printed (count_line DATA_UPLOAD_COLLECTION_NAME (total_count agg_upload));
      Called (ReqFetchObjectById cap3d "46c932c1-d44e-5b30-95d7-4c8909d02fb8" true) None;
      Called ReqClose None ].
Proof.
  intros Hconnect Hlive Hget Hagg Hget' Hagg' Hfetch.
  unfold_cell. rewrite Hconnect. cbn. rewrite Hlive. cbn. rewrite Hget. cbn.
  rewrite Hagg. cbn. rewrite Hget'. cbn. rewrite Hagg'. cbn. rewrite Hfetch. cbn.
  auto.
Qed.

(** X8. The cells [obj] and [obj.vector], run after a session cell in
    which every call answered, show what the fetch returned.  For a
    record, [obj] shows the record and [obj.vector] its vectors, an
    empty dict included.  When the fetch found nothing, [obj] evaluates
    to None and shows nothing, and [obj.vector] raises AttributeError. *)
Theorem obj_cells_after_session (ns : namespace) (k : kernel W)
    (w1 w2 w3 w4 w5 w6 w7 : W)
    (cap3d cap3d_upload : H) (agg agg_upload : AggregateReturn) (obj : option Object) :
  lib_connect lib connection_params additional_config (k_world k) = (Ok tt, w1) ->
  lib_is_live lib w1 = (Ok true, w2) ->
  lib_collections_get lib COLLECTION_NAME w2 = (Ok cap3d, w3) ->
  lib_aggregate_over_all lib cap3d true w3 = (Ok agg, w4) ->
  lib_collections_get lib DATA_UPLOAD_COLLECTION_NAME w4 = (Ok cap3d_upload, w5) ->
  lib_aggregate_over_all lib cap3d_upload true w5 = (Ok agg_upload, w6) ->
  lib_fetch_object_by_id lib cap3d "46c932c1-d44e-5b30-95d7-4c8909d02fb8" true w6
    = (Ok obj, w7) ->
  let ns' := (explore_session_run lib ns k).1 in
  explore_obj_cell ns' = Ok (DisplayObject <$> obj) /\
  explore_obj_vector_cell ns' =
    match obj with
    | Some o => Ok (Some (DisplayVectors (vector o)))
    | None => Exc (AttributeError "'NoneType' object has no attribute 'vector'")
    end.
Proof.
  intros Hconnect Hlive Hget Hagg Hget' Hagg' Hfetch. cbn zeta.
  unfold explore_session_run.
  unfold_cell. rewrite Hconnect. cbn. rewrite Hlive. cbn. rewrite Hget. cbn.
  rewrite Hagg. cbn. rewrite Hget'. cbn. rewrite Hagg'. cbn. rewrite Hfetch. cbn.
  unfold explore_obj_cell, explore_obj_vector_cell. cbn.
  by destruct obj.
Qed.

Lemma explore_failed_run_keeps_obj (ns : namespace) (k : kernel W) (e : exn) :
  outcome (explore_session_cell lib k) = Exc e ->
  (explore_session_run lib ns k).1 = ns.
Proof.
  unfold explore_session_run, outcome.
  destruct (explore_session_cell lib k) as [[[obj|e'] k'] evs]; cbn; [discriminate|done].
Qed.

(** X9. A session cell that fails does not rebind [obj].  Whenever a
    call of the run raises, or the service answers "not live", [obj] is
    bound after the run to what it was bound before, if to anything: the
    cells [obj] and [obj.vector] evaluate as they would have before the
    run, showing the record of an earlier run, and raise NameError if
    [obj] was never bound. *)
Theorem failed_session_keeps_obj (ns : namespace) (k : kernel W) :
  (exists req e, In (Called req (Some e)) (events (explore_session_cell lib k))) \/
  (exists w1 w2,
     lib_connect lib connection_params additional_config (k_world k) = (Ok tt, w1) /\
     lib_is_live lib w1 = (Ok false, w2)) ->
  ns_obj (explore_session_run lib ns k).1 = ns_obj ns /\
  explore_obj_cell (explore_session_run lib ns k).1 = explore_obj_cell ns /\
  explore_obj_vector_cell (explore_session_run lib ns k).1 = explore_obj_vector_cell ns /\
  (ns_obj ns = None ->
   explore_obj_cell (explore_session_run lib ns k).1 = Exc (NameError "obj") /\
   explore_obj_vector_cell (explore_session_run lib ns k).1 = Exc (NameError "obj")).
Proof.
  intros Hfail.
  assert (Hns : (explore_session_run lib ns k).1 = ns).
  { destruct Hfail as [(req & e & Hin) | (w1 & w2 & Hconnect & Hlive)].
    - apply in_split in Hin as (pre & post & Hev).
      apply explore_raise_ends_run in Hev as [He _].
      exact (explore_failed_run_keeps_obj ns k e He).
    - apply (explore_failed_run_keeps_obj ns k (AssertionError not_live_message)).
      unfold_cell. rewrite Hconnect. cbn. by rewrite Hlive. }
  rewrite Hns. split; [reflexivity|]. split; [reflexivity|]. split; [reflexivity|].
  intros Hunbound. unfold explore_obj_cell, explore_obj_vector_cell.
  by rewrite Hunbound.
Qed.

End Explore.

(** ** What the printed lines and values tell *)

Lemma str_int_parses (z : Z) :
  NilZero.int_of_string (str_int z) = Some (Z.to_int z).
Proof.
  unfold str_int. apply NilZero.isi.
  - destruct z as [|p|p]; cbn; [discriminate| |discriminate].
    intros [= Hp]. by apply (DecimalPos.Unsigned.to_uint_nonnil p).
  - destruct z as [|p|p]; cbn; [discriminate|discriminate|].
    intros [= Hp]. by apply (DecimalPos.Unsigned.to_uint_nonnil p).
Qed.

Lemma str_int_inj (z1 z2 : Z) : str_int z1 = str_int z2 -> z1 = z2.
Proof.
  intros Heq. apply DecimalZ.to_int_inj.
  pose proof (str_int_parses z1) as H1. rewrite Heq, str_int_parses in H1.
  congruence.
Qed.

Lemma format_optional_int_inj (n m : option Z) :
  format_optional_int n = format_optional_int m -> n = m.
Proof.
  destruct n as [z1|], m as [z2|]; cbn; intros Heq.
  - f_equal. by apply str_int_inj.
  - pose proof (str_int_parses z1) as H1. rewrite Heq in H1. discriminate.
  - pose proof (str_int_parses z2) as H2. rewrite <- Heq in H2. discriminate.
  - reflexivity.
Qed.

(** X10. A count line tells the count.  For one collection, two printed
    count lines are equal only if the service reported the same count:
    distinct integers print differently, and a missing count, printed as
    "None", is not the print of any integer. *)
Theorem count_line_tells_count (collection : string) (n m : option Z) :
  count_line collection n = count_line collection m -> n = m.
Proof.
  unfold count_line. intros [= Heq].
  apply format_optional_int_inj.
  repeat apply String.app_inj in Heq.
  exact Heq.
Qed.

(** X11. The vector report never fails on a short vector and never shows
    more than five components.  For a record whose "default" vector is
    [v], the [if obj:] block prints the type, the full length of [v],
    and a list that is a prefix of [v] with min(5, len(v)) components:
    all of [v] when it has five or fewer, the empty list for an empty
    vector. *)
Theorem vector_report_slice {W H : Type} (o : Object) (v : list pyval) (k : kernel W) :
  vector o !! "default" = Some v ->
  exists shown rest,
    outcome (monitor_inspect (H:=H) (Some o) k) = Ok tt /\
    stdout (events (monitor_inspect (H:=H) (Some o) k)) =
      [VType "list"; VInt (Z.of_nat (length v)); VList shown] /\
    v = shown ++ rest /\
    length shown = Nat.min 5 (length v) /\
    ((length v <= 5)%nat -> shown = v).
Proof.
  intros Hv. exists (take 5 v), (drop 5 v).
  destruct (monitor_inspect_default (H:=H) o v k Hv) as [-> ->].
  split; [reflexivity|]. split; [reflexivity|].
  split; [by rewrite take_drop|].
  split; [apply length_take | apply take_ge].
Qed.

(** ** Counting, as a measure of progress *)

Section Progress.
Context {W H : Type}.

(** X12. The count does not depend on the order in which the directory
    is listed: on two kernels whose listings of the directory are
    permutations of each other, each counting cell returns the same
    number, and the two cells agree with each other. *)
Theorem count_ignores_listing_order (k1 k2 : kernel W) (d1 d2 : list string) :
  k_fs k1 !! PATH_TO_EXAMPLE_OBJECTS = Some d1 ->
  k_fs k2 !! PATH_TO_EXAMPLE_OBJECTS = Some d2 ->
  d1 ≡ₚ d2 ->
  outcome (monitor_count_cell (H:=H) k1) = outcome (monitor_count_cell (H:=H) k2) /\
  outcome (explore_count_cell (H:=H) k1) = outcome (explore_count_cell (H:=H) k2) /\
  outcome (monitor_count_cell (H:=H) k1) = outcome (explore_count_cell (H:=H) k2).
Proof.
  intros H1 H2 Hperm.
  rewrite !monitor_count_cell_run, !explore_count_cell_run, H1, H2. cbn.
  by rewrite (Permutation_length Hperm).
Qed.

(** X13. The count follows the directory as it fills.  If a counting
    cell returns [n] and entries are then added to the directory, the
    cell returns [n] plus the number of entries added; the count is
    never negative, and it is 0 exactly for an empty directory. *)
Theorem count_grows_with_directory (k : kernel W) (d added : list string) :
  k_fs k !! PATH_TO_EXAMPLE_OBJECTS = Some d ->
  let k' := set_fs (<[PATH_TO_EXAMPLE_OBJECTS := d ++ added]> (k_fs k)) k in
  exists n,
    outcome (monitor_count_cell (H:=H) k) = Ok (VInt n) /\
    outcome (explore_count_cell (H:=H) k) = Ok (VInt n) /\
    outcome (monitor_count_cell (H:=H) k') = Ok (VInt (n + Z.of_nat (length added))) /\
    outcome (explore_count_cell (H:=H) k') = Ok (VInt (n + Z.of_nat (length added))) /\
    0 <= n /\
    (n = 0 <-> d = []).
Proof.
  intros Hd. cbn zeta. exists (Z.of_nat (length d)).
  rewrite !monitor_count_cell_run, !explore_count_cell_run, Hd. cbn.
  rewrite lookup_insert_eq, length_app, Nat2Z.inj_add.
  repeat split; try lia.
  - intros Hn. apply length_zero_iff_nil. lia.
  - by intros ->.
Qed.

End Progress.

(** ** The added properties on explicit inputs *)

Lemma queries_gated_by_liveness_witness :
  exists w1 w2,
    lib_connect mem_lib connection_params additional_config (mem_with true None)
      = (Ok tt, w1) /\
    lib_is_live mem_lib w1 = (Ok true, w2).
Proof.
  apply (queries_gated_by_liveness mem_lib
           (mem_kernel (mem_with true None) sample_fs)
           (Printed (VStr established_message))).
  - left. vm_compute. auto.
  - right. eexists. reflexivity.
Defined.

Lemma requests_in_vocabulary_witness :
  monitor_request (ReqFetchObjectById COLLECTION_NAME monitor_uuid true) /\
  explore_request (H:=string) (ReqCollectionsGet DATA_UPLOAD_COLLECTION_NAME).
Proof.
  split.
  - apply (proj1 (requests_in_vocabulary mem_lib
                    (mem_kernel (mem_with true None) sample_fs)
                    (ReqFetchObjectById COLLECTION_NAME monitor_uuid true) None)).
    vm_compute. auto 10.
  - apply (proj2 (requests_in_vocabulary mem_lib
                    (mem_kernel (mem_with true None) sample_fs)
                    (ReqCollectionsGet DATA_UPLOAD_COLLECTION_NAME) None)).
    vm_compute. auto 10.
Defined.

Lemma handles_come_from_get_witness :
  exists w1 w2 w3,
    lib_connect mem_lib connection_params additional_config (mem_with true None)
      = (Ok tt, w1) /\
    lib_is_live mem_lib w1 = (Ok true, w2) /\
    lib_collections_get mem_lib COLLECTION_NAME w2 = (Ok COLLECTION_NAME, w3).
Proof.
  apply (proj1 (handles_come_from_get mem_lib
                  (mem_kernel (mem_with true None) sample_fs)
                  (ReqFetchObjectById COLLECTION_NAME monitor_uuid true) None
                  COLLECTION_NAME eq_refl)).
  vm_compute. auto 10.
Defined.

Lemma explore_session_success_witness :
  outcome (explore_session_cell mem_lib
             (mem_kernel (mem_with true (Some obj_explored)) sample_fs))
    = Ok (Some obj_explored) /\
  mem_served (k_world (final (explore_session_cell mem_lib
             (mem_kernel (mem_with true (Some obj_explored)) sample_fs)))) = 5%nat.
Proof.
  split.
  - refine (proj1 (explore_session_success mem_lib
              (mem_kernel (mem_with true (Some obj_explored)) sample_fs)
              _ _ _ _ _ _ _ COLLECTION_NAME DATA_UPLOAD_COLLECTION_NAME
              {| total_count := Some 1 |} {| total_count := Some 0 |}
              (Some obj_explored) _ _ _ _ _ _ _)); reflexivity.
  - reflexivity.
Defined.

Lemma obj_cells_after_session_witness :
  explore_obj_vector_cell
    (explore_session_run mem_lib fresh_namespace
       (mem_kernel (mem_with true (Some obj_explored)) sample_fs)).1
    = Ok (Some (DisplayVectors ∅)) /\
  explore_obj_vector_cell
    (explore_session_run mem_lib fresh_namespace
       (mem_kernel (mem_with true None) sample_fs)).1
    = Exc (AttributeError "'NoneType' object has no attribute 'vector'").
Proof.
  split.
  - refine (proj2 (obj_cells_after_session mem_lib fresh_namespace
              (mem_kernel (mem_with true (Some obj_explored)) sample_fs)
              _ _ _ _ _ _ _ COLLECTION_NAME DATA_UPLOAD_COLLECTION_NAME
              {| total_count := Some 1 |} {| total_count := Some 0 |}
              (Some obj_explored) _ _ _ _ _ _ _)); reflexivity.
  - refine (proj2 (obj_cells_after_session mem_lib fresh_namespace
              (mem_kernel (mem_with true None) sample_fs)
              _ _ _ _ _ _ _ COLLECTION_NAME DATA_UPLOAD_COLLECTION_NAME
              {| total_count := Some 0 |} {| total_count := Some 0 |}
              None _ _ _ _ _ _ _)); reflexivity.
Defined.

Lemma failed_session_keeps_obj_witness :
  explore_obj_cell
    (explore_session_run mem_lib fresh_namespace
       (mem_kernel (mem_with false (Some obj_explored)) sample_fs)).1
    = Exc (NameError "obj") /\
  explore_obj_vector_cell
    (explore_session_run mem_lib {| ns_obj := Some (Some obj_explored) |}
       (mem_kernel mem_no_collections sample_fs)).1
    = Ok (Some (DisplayVectors ∅)).
Proof.
  split.
  - refine (proj1 (proj2 (proj2 (proj2 (failed_session_keeps_obj mem_lib fresh_namespace
              (mem_kernel (mem_with false (Some obj_explored)) sample_fs) _))) eq_refl)).
    right. eexists _, _. split; reflexivity.
  - refine (proj1 (proj2 (proj2 (failed_session_keeps_obj mem_lib
              {| ns_obj := Some (Some obj_explored) |}
              (mem_kernel mem_no_collections sample_fs) _)))).
    left. exists (ReqAggregateOverAll COLLECTION_NAME true),
                 (mem_unknown_collection COLLECTION_NAME).
    vm_compute. auto 10.
Defined.

Lemma count_line_tells_count_witness :
  count_line COLLECTION_NAME (Some 15000) = VStr "Number of objects in Cap3DMM collection: 15000" /\
  Some 15000 = Some 15000.
Proof.
  split.
  - reflexivity.
  - exact (count_line_tells_count COLLECTION_NAME (Some 15000) (Some 15000) eq_refl).
Defined.

Lemma vector_report_slice_witness :
  exists shown rest,
    outcome (monitor_inspect (H:=string) (Some obj_with_vector)
               (mem_kernel (mem_with true None) sample_fs)) = Ok tt /\
    stdout (events (monitor_inspect (H:=string) (Some obj_with_vector)
               (mem_kernel (mem_with true None) sample_fs))) =
      [VType "list"; VInt (Z.of_nat (length sample_vector)); VList shown] /\
    sample_vector = shown ++ rest /\
    length shown = Nat.min 5 (length sample_vector) /\
    ((length sample_vector <= 5)%nat -> shown = sample_vector).
Proof.
  exact (vector_report_slice (H:=string) obj_with_vector sample_vector
           (mem_kernel (mem_with true None) sample_fs) eq_refl).
Defined.

Lemma count_ignores_listing_order_witness :
  outcome (monitor_count_cell (H:=string) (mem_kernel (mem_with true None) sample_fs))
  = outcome (explore_count_cell (H:=string) (mem_kernel (mem_with true None) swapped_fs)).
Proof.
  exact (proj2 (proj2 (count_ignores_listing_order (H:=string)
           (mem_kernel (mem_with true None) sample_fs)
           (mem_kernel (mem_with true None) swapped_fs)
           ["a"; "b"]%string ["b"; "a"]%string eq_refl eq_refl
           (perm_swap "b"%string "a"%string [])))).
Defined.

Lemma count_grows_with_directory_witness :
  exists n,
    outcome (monitor_count_cell (H:=string)
               (mem_kernel (mem_with true None) one_entry_fs)) = Ok (VInt n) /\
    outcome (explore_count_cell (H:=string)
               (set_fs (<[PATH_TO_EXAMPLE_OBJECTS := ["a"; "b"; "c"]%string]> one_entry_fs)
                  (mem_kernel (mem_with true None) one_entry_fs))) = Ok (VInt (n + 2)).
Proof.
  destruct (count_grows_with_directory (H:=string)
              (mem_kernel (mem_with true None) one_entry_fs)
              ["a"]%string ["b"; "c"]%string eq_refl)
    as (n & Hbefore & _ & _ & Hafter & _).
  exists n. split; [exact Hbefore | exact Hafter].
Defined.
